(** * Field transforms of the Firestore client: [dev/src/field-value.ts]

    A shallow embedding of the sentinel values of [field-value.ts] (the
    [FieldValue] factories and the five [FieldTransform] classes) together
    with the properties the specification states about them.

    The file is organised as follows:
    - [Host]: the part of the JavaScript runtime the module relies on
      (values, object identity, [===], [Array.isArray], property reads,
      allocation, exceptions) and the [fast-deep-equal] package;
    - [Imports]: what the module imports from [./validate], [./serializer]
      and [./path], taken as parameters of the embedding;
    - the classes and factories of [field-value.ts];
    - [SpecModel]: the imported helpers as the specification describes them;
    - the theorems. *)

From Stdlib Require Import List String Ascii Bool Arith ZArith Lia.
From Stdlib Require Import Floats.SpecFloat.
From Stdlib Require Import Strings.String Numbers.DecimalString.
Import ListNotations.

Local Open Scope string_scope.
Local Open Scope list_scope.
Local Set Warnings "-register-all".

(** ** The host: JavaScript values and the operations the module uses *)

Module Host.

(** Objects have an identity; a [ref] names one object. *)
Definition ref := nat.

(** A JavaScript number is an IEEE 754 binary64 value. *)
Definition number := spec_float.

Definition prec : Z := 53.
Definition emax : Z := 1024.

(** The value of an integer literal such as [1] or [2]. *)
Definition number_of_Z (z : Z) : number := binary_normalize prec emax z 0 false.

(** The value of a decimal literal with [frac] digits after the point, whose
    digits read as the integer [digits]: [1.0] is [decimal_literal 10 1]. *)
Definition decimal_literal (digits : Z) (frac : nat) : number :=
  SFdiv prec emax (number_of_Z digits) (number_of_Z (10 ^ Z.of_nat frac)).

(** Unary minus, as in [-0] and [-1.0]. *)
Definition negate (n : number) : number := SFopp n.

Definition NaN : number := S754_nan.

(** [x === y] on numbers: IEEE equality, under which [NaN] differs from
    itself and the two zeros are equal. *)
Definition number_equals (x y : number) : bool := SFeqb x y.

Definition is_nan (x : number) : bool :=
  match x with S754_nan => true | _ => false end.

(** The classes of [field-value.ts] are part of the value universe, since a
    transform can be passed wherever a value can (as an array element, as the
    operand of [increment]).  A [FieldTransform] is the state of one instance:
    its class and its own fields. *)
Inductive value : Type :=
| VUndefined
| VNull
| VBoolean (b : bool)
| VNumber (n : number)
| VString (s : string)
| VArray (r : ref) (items : list value)
| VObject (r : ref) (props : list (string * value))
| VFieldValue (r : ref) (t : FieldTransform)
with FieldTransform : Type :=
| DeleteTransform
| ServerTimestampTransform
| NumericIncrementTransform (operand : value)
| ArrayUnionTransform (r : ref) (elements : list value)
| ArrayRemoveTransform (r : ref) (elements : list value).

(** The array held in the [elements] field of an array transform. *)
Definition elements_array (r : ref) (elements : list value) : value :=
  VArray r elements.

(** The identity of an object; primitives have none. *)
Definition reference (v : value) : option ref :=
  match v with
  | VArray r _ | VObject r _ | VFieldValue r _ => Some r
  | _ => None
  end.

(** [a === b]. *)
Definition strict_equals (a b : value) : bool :=
  match a, b with
  | VUndefined, VUndefined => true
  | VNull, VNull => true
  | VBoolean x, VBoolean y => Bool.eqb x y
  | VNumber x, VNumber y => number_equals x y
  | VString x, VString y => String.eqb x y
  | _, _ =>
      match reference a, reference b with
      | Some r, Some r' => Nat.eqb r r'
      | _, _ => false
      end
  end.

(** [Array.isArray(v)]. *)
Definition Array_isArray (v : value) : bool :=
  match v with VArray _ _ => true | _ => false end.

(** [typeof v === 'number']. *)
Definition is_number (v : value) : bool :=
  match v with VNumber _ => true | _ => false end.

(** [v !== v], which holds of [NaN] only. *)
Definition differs_from_itself (v : value) : bool :=
  match v with VNumber n => is_nan n | _ => false end.

(** Own property lookup in a property list. *)
Fixpoint lookup (k : string) (props : list (string * value)) : option value :=
  match props with
  | [] => None
  | (k', v) :: rest => if String.eqb k k' then Some v else lookup k rest
  end.

Definition has_own_property (props : list (string * value)) (k : string) : bool :=
  match lookup k props with Some _ => true | None => false end.

(** *** [fast-deep-equal]

    The package imported as [deepEqual].  Its function [equal(a, b)] returns
    true when [a === b]; for two objects with the same constructor it
    compares arrays by length and then item by item, and other objects by
    their own enumerable keys ([Object.keys]) and the values under them;
    otherwise it returns [a !== a && b !== b], true when both are [NaN].
    An instance of a transform class has the class as its constructor and
    its fields ([operand], [elements]) as own keys. *)
Fixpoint deepEqual (a b : value) {struct a} : bool :=
  strict_equals a b ||
  match a, b with
  | VArray _ xs, VArray _ ys =>
      (fix items (xs ys : list value) {struct xs} : bool :=
         match xs, ys with
         | [], [] => true
         | x :: xs', y :: ys' => deepEqual x y && items xs' ys'
         | _, _ => false
         end) xs ys
  | VObject _ ps, VObject _ qs =>
      Nat.eqb (List.length ps) (List.length qs)
      && forallb (fun p => has_own_property qs (fst p)) ps
      && (fix keys (ps : list (string * value)) {struct ps} : bool :=
            match ps with
            | [] => true
            | (k, v) :: ps' =>
                match lookup k qs with
                | Some w => deepEqual v w
                | None => false
                end && keys ps'
            end) ps
  | VFieldValue _ t, VFieldValue _ u => deepEqual_fields t u
  | _, _ => differs_from_itself a && differs_from_itself b
  end
with deepEqual_fields (t u : FieldTransform) {struct t} : bool :=
  match t, u with
  | DeleteTransform, DeleteTransform => true
  | ServerTimestampTransform, ServerTimestampTransform => true
  | NumericIncrementTransform x, NumericIncrementTransform y => deepEqual x y
  | ArrayUnionTransform r xs, ArrayUnionTransform r' ys
  | ArrayRemoveTransform r xs, ArrayRemoveTransform r' ys =>
      Nat.eqb r r' ||
      (fix items (xs ys : list value) {struct xs} : bool :=
         match xs, ys with
         | [], [] => true
         | x :: xs', y :: ys' => deepEqual x y && items xs' ys'
         | _, _ => false
         end) xs ys
  | _, _ => false
  end.

(** The item-by-item comparison of two arrays, in order and to the end of
    both: what [deepEqual] computes for two arrays that are not the same
    object (lemma [deepEqual_arrays]). *)
Fixpoint deepEqual_items (xs ys : list value) : bool :=
  match xs, ys with
  | [], [] => true
  | x :: xs', y :: ys' => deepEqual x y && deepEqual_items xs' ys'
  | _, _ => false
  end.

(** *** Exceptions and allocation *)

(** The label of an argument in an error message: [arg: string | number],
    a name or, for a rest parameter, the index of the element. *)
Inductive arg_label : Type :=
| ArgName (name : string)
| ArgIndex (index : nat).

(** What can be thrown.  [Error message] is [new Error(message)], the only
    exception [field-value.ts] creates itself; [TypeError] is what the host
    throws when a property is read from [null] or [undefined].
    [ArgumentError] and [ValidationError] are the two kinds of error the
    specification attributes to the helpers of [./validate] and
    [./serializer]; they carry the context the specification lists (the
    function and its minimum arity; the argument and what it should be). *)
Inductive exn : Type :=
| Error (message : string)
| TypeError
| ArgumentError (funcName : string) (minSize : nat)
| ValidationError (arg : arg_label) (expected : string).

Inductive completion (A : Type) : Type :=
| Normal (a : A)
| Throw (e : exn).
Arguments Normal {A} a.
Arguments Throw {A} e.

(** The allocator: the next reference not yet given to an object. *)
Definition heap := ref.

(** A computation that may create objects and may throw. *)
Definition M (A : Type) : Type := heap -> completion A * heap.

Definition ret {A} (a : A) : M A := fun h => (Normal a, h).

Definition throw {A} (e : exn) : M A := fun h => (Throw e, h).

Definition bind {A B} (m : M A) (k : A -> M B) : M B :=
  fun h =>
    match m h with
    | (Normal a, h') => k a h'
    | (Throw e, h') => (Throw e, h')
    end.

Definition lift {A} (c : completion A) : M A := fun h => (c, h).

(** Creating an object ([new C(...)], an object or array literal, the array
    of a rest parameter) takes the next reference. *)
Definition new_object : M ref := fun h => (Normal h, S h).

(** [v.arrayValue].  Reading a property of [null] or [undefined] throws; a
    plain object gives the value stored under the key, or [undefined]; no
    other value of this universe has a property of that name. *)
Definition read_arrayValue (v : value) : completion value :=
  match v with
  | VUndefined | VNull => Throw TypeError
  | VObject _ props =>
      Normal (match lookup "arrayValue" props with
              | Some w => w
              | None => VUndefined
              end)
  | _ => Normal VUndefined
  end.

End Host.

Export Host.

Declare Scope js_scope.
Delimit Scope js_scope with js.
Notation "x <- m ;; k" := (bind m (fun x => k))
  (at level 61, m at next level, right associativity) : js_scope.
Notation "m ;;; k" := (bind m (fun _ => k))
  (at level 61, right associativity) : js_scope.
Local Open Scope js_scope.

(** ** What [field-value.ts] imports *)

(** [FieldPath] of [./path]; only its [formattedName] is read. *)
Record FieldPath : Type := { formattedName : string }.

(** [Serializer] of [./serializer], passed to [toProto]; only [encodeValue]
    is called.  Encoding may create objects and may throw, and it may return
    [null]. *)
Record Serializer : Type := { encodeValue : value -> M value }.

(** The options object given to [validateUserInput]. *)
Record ValidationOptions : Type := {
  allowDeletes : string;
  allowTransforms : bool;
  allowUndefined : bool
}.

(** The functions imported from [./validate] and [./serializer].  Their
    sources are not part of [field-value.ts]; the embedding of the module is
    parametric in them. *)
Record Imports : Type := {
  invalidArgumentMessage : arg_label -> string -> string;
  validateMinNumberOfArguments : string -> list value -> nat -> completion unit;
  validateNumber : arg_label -> value -> completion unit;
  validateUserInput :
    arg_label -> value -> string -> ValidationOptions ->
    option FieldPath -> nat -> bool -> completion unit
}.

(** ** The classes of [field-value.ts] *)

(** An instance of [FieldValue]: the object's identity and its state.  Every
    instance the module creates belongs to one of the five subclasses of
    [FieldTransform]. *)
Record FieldValue : Type := {
  this_ref : ref;
  this_class : FieldTransform
}.

(** The instance seen as a value. *)
Definition value_of (x : FieldValue) : value :=
  VFieldValue (this_ref x) (this_class x).

(** [static DELETE_SENTINEL = new DeleteTransform()] and
    [static SERVER_TIMESTAMP_SENTINEL = new ServerTimestampTransform()]:
    the static initialisers run once, when the module is loaded, and create
    its first two objects. *)
Definition DELETE_SENTINEL : FieldValue :=
  {| this_ref := 0; this_class := DeleteTransform |}.

Definition SERVER_TIMESTAMP_SENTINEL : FieldValue :=
  {| this_ref := 1; this_class := ServerTimestampTransform |}.

(** The allocator once the module is loaded. *)
Definition heap_after_load : heap := 2.

(** [get includeInDocumentMask()], class by class. *)
Definition includeInDocumentMask (t : FieldTransform) : bool :=
  match t with
  | DeleteTransform => true
  | ServerTimestampTransform => false
  | NumericIncrementTransform _ => false
  | ArrayUnionTransform _ _ => false
  | ArrayRemoveTransform _ _ => false
  end.

(** [get includeInDocumentTransform()], class by class. *)
Definition includeInDocumentTransform (t : FieldTransform) : bool :=
  match t with
  | DeleteTransform => false
  | ServerTimestampTransform => true
  | NumericIncrementTransform _ => true
  | ArrayUnionTransform _ _ => true
  | ArrayRemoveTransform _ _ => true
  end.

(** [get methodName()], class by class. *)
Definition methodName (t : FieldTransform) : string :=
  match t with
  | DeleteTransform => "FieldValue.delete"
  | ServerTimestampTransform => "FieldValue.serverTimestamp"
  | NumericIncrementTransform _ => "FieldValue.increment"
  | ArrayUnionTransform _ _ => "FieldValue.arrayUnion"
  | ArrayRemoveTransform _ _ => "FieldValue.arrayRemove"
  end.

(** *** [isEqual] *)

(** [FieldValue.isEqual]: [this === other].  [DeleteTransform] and
    [ServerTimestampTransform] inherit it. *)
Definition FieldValue_isEqual (this : FieldValue) (other : value) : bool :=
  strict_equals (value_of this) other.

Definition NumericIncrementTransform_isEqual
    (this : FieldValue) (operand : value) (other : value) : bool :=
  strict_equals (value_of this) other
  || match other with
     | VFieldValue _ (NumericIncrementTransform operand') =>
         strict_equals operand operand'
     | _ => false
     end.

Definition ArrayUnionTransform_isEqual
    (this : FieldValue) (elements : value) (other : value) : bool :=
  strict_equals (value_of this) other
  || match other with
     | VFieldValue _ (ArrayUnionTransform r' elements') =>
         deepEqual elements (elements_array r' elements')
     | _ => false
     end.

Definition ArrayRemoveTransform_isEqual
    (this : FieldValue) (elements : value) (other : value) : bool :=
  strict_equals (value_of this) other
  || match other with
     | VFieldValue _ (ArrayRemoveTransform r' elements') =>
         deepEqual elements (elements_array r' elements')
     | _ => false
     end.

(** [this.isEqual(other)], dispatched on the class of [this]. *)
Definition isEqual (this : FieldValue) (other : value) : bool :=
  match this_class this with
  | DeleteTransform => FieldValue_isEqual this other
  | ServerTimestampTransform => FieldValue_isEqual this other
  | NumericIncrementTransform operand =>
      NumericIncrementTransform_isEqual this operand other
  | ArrayUnionTransform r elements =>
      ArrayUnionTransform_isEqual this (elements_array r elements) other
  | ArrayRemoveTransform r elements =>
      ArrayRemoveTransform_isEqual this (elements_array r elements) other
  end.

(** *** [toProto] *)

Definition DeleteTransform_toProto : M value :=
  throw (Error "FieldValue.delete() should not be included in a FieldTransform").

Definition ServerTimestampTransform_toProto
    (serializer : Serializer) (fieldPath : FieldPath) : M value :=
  o <- new_object ;;
  ret (VObject o [("fieldPath", VString (formattedName fieldPath));
                  ("setToServerValue", VString "REQUEST_TIME")]).

Definition NumericIncrementTransform_toProto
    (operand : value) (serializer : Serializer) (fieldPath : FieldPath) : M value :=
  encodedOperand <- encodeValue serializer operand ;;
  o <- new_object ;;
  ret (VObject o [("fieldPath", VString (formattedName fieldPath));
                  ("increment", encodedOperand)]).

Definition ArrayUnionTransform_toProto
    (elements : value) (serializer : Serializer) (fieldPath : FieldPath) : M value :=
  encoded <- encodeValue serializer elements ;;
  encodedElements <- lift (read_arrayValue encoded) ;;
  o <- new_object ;;
  ret (VObject o [("fieldPath", VString (formattedName fieldPath));
                  ("appendMissingElements", encodedElements)]).

Definition ArrayRemoveTransform_toProto
    (elements : value) (serializer : Serializer) (fieldPath : FieldPath) : M value :=
  encoded <- encodeValue serializer elements ;;
  encodedElements <- lift (read_arrayValue encoded) ;;
  o <- new_object ;;
  ret (VObject o [("fieldPath", VString (formattedName fieldPath));
                  ("removeAllFromArray", encodedElements)]).

(** [this.toProto(serializer, fieldPath)], dispatched on the class. *)
Definition toProto
    (t : FieldTransform) (serializer : Serializer) (fieldPath : FieldPath) : M value :=
  match t with
  | DeleteTransform => DeleteTransform_toProto
  | ServerTimestampTransform => ServerTimestampTransform_toProto serializer fieldPath
  | NumericIncrementTransform operand =>
      NumericIncrementTransform_toProto operand serializer fieldPath
  | ArrayUnionTransform r elements =>
      ArrayUnionTransform_toProto (elements_array r elements) serializer fieldPath
  | ArrayRemoveTransform r elements =>
      ArrayRemoveTransform_toProto (elements_array r elements) serializer fieldPath
  end.

(** The encoding of the two array transforms as the specification words it,
    with the result of the encoder itself under [appendMissingElements] and
    [removeAllFromArray].  It is compared with [toProto] above and is not
    part of the module. *)
Definition toProto_as_specified
    (t : FieldTransform) (serializer : Serializer) (fieldPath : FieldPath) : M value :=
  match t with
  | ArrayUnionTransform r elements =>
      encoded <- encodeValue serializer (elements_array r elements) ;;
      o <- new_object ;;
      ret (VObject o [("fieldPath", VString (formattedName fieldPath));
                      ("appendMissingElements", encoded)])
  | ArrayRemoveTransform r elements =>
      encoded <- encodeValue serializer (elements_array r elements) ;;
      o <- new_object ;;
      ret (VObject o [("fieldPath", VString (formattedName fieldPath));
                      ("removeAllFromArray", encoded)])
  | _ => toProto t serializer fieldPath
  end.

(** The value [toProto] hands to [serializer.encodeValue]: the operand of an
    increment, the [elements] array of an array transform; the two sentinels
    encode nothing. *)
Definition encoded_payload (t : FieldTransform) : option value :=
  match t with
  | DeleteTransform => None
  | ServerTimestampTransform => None
  | NumericIncrementTransform operand => Some operand
  | ArrayUnionTransform r elements => Some (elements_array r elements)
  | ArrayRemoveTransform r elements => Some (elements_array r elements)
  end.

(** *** Validation and the factories, which call the imported helpers *)

Section WithImports.

Variable imports : Imports.

Definition validateArrayElement
    (arg : arg_label) (v : value) (allowUndefined : bool) : completion unit :=
  if Array_isArray v then
    Throw (Error (invalidArgumentMessage imports arg "array element"
                  ++ " Nested arrays are not supported."))
  else
    validateUserInput imports arg v "array element"
      {| allowDeletes := "none";
         allowTransforms := false;
         allowUndefined := allowUndefined |}
      None 0 true.

(** [for (let i = ...; i < this.elements.length; ++i)
       validateArrayElement(i, this.elements[i], allowUndefined)],
    entered at index [i] with the elements from [i] on still to visit. *)
Fixpoint validate_elements
    (i : nat) (elements : list value) (allowUndefined : bool) : completion unit :=
  match elements with
  | [] => Normal tt
  | e :: rest =>
      match validateArrayElement (ArgIndex i) e allowUndefined with
      | Normal _ => validate_elements (S i) rest allowUndefined
      | Throw x => Throw x
      end
  end.

Definition DeleteTransform_validate : completion unit := Normal tt.

Definition ServerTimestampTransform_validate : completion unit := Normal tt.

Definition NumericIncrementTransform_validate (operand : value) : completion unit :=
  validateNumber imports (ArgName "FieldValue.increment()") operand.

Definition ArrayUnionTransform_validate
    (elements : list value) (allowUndefined : bool) : completion unit :=
  validate_elements 0 elements allowUndefined.

Definition ArrayRemoveTransform_validate
    (elements : list value) (allowUndefined : bool) : completion unit :=
  validate_elements 0 elements allowUndefined.

(** [this.validate(allowUndefined)], dispatched on the class. *)
Definition validate (t : FieldTransform) (allowUndefined : bool) : completion unit :=
  match t with
  | DeleteTransform => DeleteTransform_validate
  | ServerTimestampTransform => ServerTimestampTransform_validate
  | NumericIncrementTransform operand => NumericIncrementTransform_validate operand
  | ArrayUnionTransform _ elements => ArrayUnionTransform_validate elements allowUndefined
  | ArrayRemoveTransform _ elements => ArrayRemoveTransform_validate elements allowUndefined
  end.

(** The static factories.  A call is given the list of its actual arguments:
    [increment] reads its parameter [n] from the first one ([undefined] when
    there is none) and hands the whole list, its [arguments], to the arity
    check; [arrayUnion] and [arrayRemove] collect the list into the fresh
    array of their rest parameter. *)
Definition FieldValue_delete : M FieldValue := ret DELETE_SENTINEL.

Definition FieldValue_serverTimestamp : M FieldValue := ret SERVER_TIMESTAMP_SENTINEL.

Definition FieldValue_increment (arguments : list value) : M FieldValue :=
  let n := nth 0 arguments VUndefined in
  lift (validateMinNumberOfArguments imports "FieldValue.increment" arguments 1) ;;;
  this <- new_object ;;
  ret {| this_ref := this; this_class := NumericIncrementTransform n |}.

Definition FieldValue_arrayUnion (arguments : list value) : M FieldValue :=
  elements <- new_object ;;
  lift (validateMinNumberOfArguments imports "FieldValue.arrayUnion" arguments 1) ;;;
  this <- new_object ;;
  ret {| this_ref := this; this_class := ArrayUnionTransform elements arguments |}.

Definition FieldValue_arrayRemove (arguments : list value) : M FieldValue :=
  elements <- new_object ;;
  lift (validateMinNumberOfArguments imports "FieldValue.arrayRemove" arguments 1) ;;;
  this <- new_object ;;
  ret {| this_ref := this; this_class := ArrayRemoveTransform elements arguments |}.

End WithImports.

(** *** Comparing the results of two factory calls *)

(** Objects created by the rest of the program between two calls. *)
Definition allocate (k : nat) : M unit := fun h => (Normal tt, k + h).

(** [first.isEqual(second)] where [first] and [second] are the results of
    two factory calls, the second made after the first, with [k] other
    objects created in between. *)
Definition isEqual_between
    (first : M FieldValue) (k : nat) (second : M FieldValue) : M bool :=
  x <- first ;;
  allocate k ;;;
  y <- second ;;
  ret (isEqual x (value_of y)).

(** ** The imported helpers, as the specification describes them *)

Module SpecModel.

Definition string_of_nat (i : nat) : string :=
  NilEmpty.string_of_uint (Nat.to_uint i).

(** Modelled from the spec: [invalidArgumentMessage] of [./validate], whose
    source is missing.  The specification only says that the message built
    from it names the element's index and that the nested-array error
    references it (sections 4.3 and 8); the wording around the index is not
    fixed there. *)
Definition invalidArgumentMessage (arg : arg_label) (expected : string) : string :=
  match arg with
  | ArgName name => "Argument " ++ name ++ " is not a valid " ++ expected ++ "."
  | ArgIndex i =>
      "Element at index " ++ string_of_nat i ++ " is not a valid " ++ expected ++ "."
  end.

(** Modelled from the spec: [validateMinNumberOfArguments] of [./validate],
    whose source is missing.  Sections 4.1 and 7: a factory fails with an
    ArgumentError when the minimum-argument contract is violated, and not
    otherwise. *)
Definition validateMinNumberOfArguments
    (funcName : string) (args : list value) (minSize : nat) : completion unit :=
  if Nat.ltb (List.length args) minSize then Throw (ArgumentError funcName minSize)
  else Normal tt.

(** Modelled from the spec: [validateNumber] of [./validate], whose source is
    missing.  Section 7: a ValidationError is raised for a non-numeric
    increment operand. *)
Definition validateNumber (arg : arg_label) (v : value) : completion unit :=
  if is_number v then Normal tt else Throw (ValidationError arg "number").

(** Modelled from the spec: [validateUserInput] of [./serializer], whose
    source is missing.  Sections 4.3, 6 and 7: under the policy it is given,
    a delete sentinel is rejected when deletes are not allowed, a field
    transform when transforms are not allowed, an undefined value when
    [allowUndefined] is false; the policy is propagated through nested
    arrays and maps; the error is a ValidationError. *)
Fixpoint validateUserInput
    (arg : arg_label) (v : value) (desc : string) (options : ValidationOptions)
    (path : option FieldPath) (level : nat) (inArray : bool) {struct v}
    : completion unit :=
  match v with
  | VUndefined =>
      if allowUndefined options then Normal tt
      else Throw (ValidationError arg desc)
  | VFieldValue _ DeleteTransform =>
      if String.eqb (allowDeletes options) "none"
      then Throw (ValidationError arg desc)
      else Normal tt
  | VFieldValue _ _ =>
      if allowTransforms options then Normal tt
      else Throw (ValidationError arg desc)
  | VArray _ items =>
      (fix each (items : list value) : completion unit :=
         match items with
         | [] => Normal tt
         | x :: rest =>
             match validateUserInput arg x desc options path (S level) true with
             | Normal _ => each rest
             | Throw e => Throw e
             end
         end) items
  | VObject _ props =>
      (fix each (props : list (string * value)) : completion unit :=
         match props with
         | [] => Normal tt
         | (_, x) :: rest =>
             match validateUserInput arg x desc options path (S level) inArray with
             | Normal _ => each rest
             | Throw e => Throw e
             end
         end) props
  | _ => Normal tt
  end.

Definition imports : Imports :=
  Build_Imports
    invalidArgumentMessage
    validateMinNumberOfArguments
    validateNumber
    validateUserInput.

End SpecModel.

(** ** A serializer to run [toProto] with

    [encodeValue] is a parameter of [toProto].  This instance encodes
    numbers, strings, booleans, [null] and arrays of those in the shape of
    the Firestore [Value] message, each message a fresh object; it returns
    [null] for anything else. *)

Module Example.

Fixpoint encode (v : value) : M value :=
  match v with
  | VNull =>
      o <- new_object ;;
      ret (VObject o [("nullValue", VString "NULL_VALUE")])
  | VBoolean b =>
      o <- new_object ;;
      ret (VObject o [("booleanValue", VBoolean b)])
  | VNumber n =>
      o <- new_object ;;
      ret (VObject o [("doubleValue", VNumber n)])
  | VString s =>
      o <- new_object ;;
      ret (VObject o [("stringValue", VString s)])
  | VArray _ items =>
      values <- (fix each (items : list value) : M (list value) :=
                   match items with
                   | [] => ret []
                   | x :: rest =>
                       x' <- encode x ;;
                       rest' <- each rest ;;
                       ret (x' :: rest')
                   end) items ;;
      a <- new_object ;;
      arrayValue <- new_object ;;
      o <- new_object ;;
      ret (VObject o [("arrayValue", VObject arrayValue [("values", VArray a values)])])
  | _ => ret VNull
  end.

Definition serializer : Serializer := {| encodeValue := encode |}.

End Example.

(** Two degenerate serializers, to run the failure paths of [toProto]:
    [encodeValue] is typed to return a message or [null], and it may throw.
    The first encodes nothing, the second rejects every value. *)

Module Degenerate.

Definition null_serializer : Serializer :=
  {| encodeValue := fun _ => ret VNull |}.

Definition throwing_serializer : Serializer :=
  {| encodeValue := fun _ => throw (Error "Cannot encode value") |}.

End Degenerate.

(** ** Properties of the host operations *)

Section HostFacts.

Lemma number_equals_self (n : number) : number_equals n n = negb (is_nan n).
Proof.
  destruct n as [s | s | | s m e]; try (destruct s; reflexivity); try reflexivity.
  unfold number_equals, SFeqb, SFcompare.
  destruct s; rewrite Z.compare_refl, Pos.compare_cont_refl; reflexivity.
Qed.

Lemma strict_equals_self (v : value) :
  strict_equals v v = negb (differs_from_itself v).
Proof.
  destruct v; simpl; auto using Nat.eqb_refl, String.eqb_refl, number_equals_self.
  destruct b; reflexivity.
Qed.

Lemma deepEqual_strict (a b : value) :
  strict_equals a b = true -> deepEqual a b = true.
Proof. destruct a; simpl; intros ->; reflexivity. Qed.

(** [deepEqual] holds between a value and itself, [NaN] included. *)
Lemma deepEqual_self (v : value) : deepEqual v v = true.
Proof.
  destruct (differs_from_itself v) eqn:Hnan.
  - destruct v; try discriminate. simpl in *. rewrite Hnan. apply orb_true_r.
  - apply deepEqual_strict. rewrite strict_equals_self, Hnan. reflexivity.
Qed.

Lemma deepEqual_items_self (xs : list value) : deepEqual_items xs xs = true.
Proof.
  induction xs as [| x xs IH]; simpl; [reflexivity |].
  rewrite deepEqual_self, IH. reflexivity.
Qed.

Lemma deepEqual_arrays (r r' : ref) (xs ys : list value) :
  deepEqual (VArray r xs) (VArray r' ys) = Nat.eqb r r' || deepEqual_items xs ys.
Proof.
  reflexivity.
Qed.

Lemma later_ref_differs (h k : nat) : Nat.eqb h (S h + k) = false.
Proof. apply Nat.eqb_neq. lia. Qed.

End HostFacts.

(** ** What the factories return *)

Section FactoryFacts.

Lemma FieldValue_increment_returns (n : value) (rest : list value) (h : heap) :
  FieldValue_increment SpecModel.imports (n :: rest) h =
  (Normal {| this_ref := h; this_class := NumericIncrementTransform n |}, S h).
Proof. reflexivity. Qed.

Lemma FieldValue_arrayUnion_returns (e : value) (rest : list value) (h : heap) :
  FieldValue_arrayUnion SpecModel.imports (e :: rest) h =
  (Normal {| this_ref := S h; this_class := ArrayUnionTransform h (e :: rest) |},
   S (S h)).
Proof. reflexivity. Qed.

Lemma FieldValue_arrayRemove_returns (e : value) (rest : list value) (h : heap) :
  FieldValue_arrayRemove SpecModel.imports (e :: rest) h =
  (Normal {| this_ref := S h; this_class := ArrayRemoveTransform h (e :: rest) |},
   S (S h)).
Proof. reflexivity. Qed.

(** Two increments made by separate calls are compared by their operands. *)
Lemma increment_isEqual_between (a b : value) (k : nat) (h : heap) :
  fst (isEqual_between (FieldValue_increment SpecModel.imports [a]) k
                       (FieldValue_increment SpecModel.imports [b]) h)
  = Normal (strict_equals a b).
Proof.
  unfold isEqual_between, bind. rewrite FieldValue_increment_returns.
  unfold allocate. rewrite FieldValue_increment_returns.
  unfold ret, isEqual, NumericIncrementTransform_isEqual, value_of. simpl.
  replace (k + S h) with (S h + k) by lia.
  rewrite later_ref_differs. reflexivity.
Qed.

(** Two array unions made by separate calls are compared item by item. *)
Lemma arrayUnion_isEqual_between
    (e e' : value) (rest rest' : list value) (k : nat) (h : heap) :
  fst (isEqual_between (FieldValue_arrayUnion SpecModel.imports (e :: rest)) k
                       (FieldValue_arrayUnion SpecModel.imports (e' :: rest')) h)
  = Normal (deepEqual_items (e :: rest) (e' :: rest')).
Proof.
  unfold isEqual_between, bind. rewrite FieldValue_arrayUnion_returns.
  unfold allocate. rewrite FieldValue_arrayUnion_returns.
  unfold ret, isEqual, ArrayUnionTransform_isEqual, value_of, elements_array.
  cbn [fst this_ref this_class strict_equals reference].
  rewrite deepEqual_arrays.
  replace (S (k + S (S h))) with (S (S h) + S k) by lia.
  replace (k + S (S h)) with (S h + S k) by lia.
  rewrite !later_ref_differs. reflexivity.
Qed.

Lemma arrayRemove_isEqual_between
    (e e' : value) (rest rest' : list value) (k : nat) (h : heap) :
  fst (isEqual_between (FieldValue_arrayRemove SpecModel.imports (e :: rest)) k
                       (FieldValue_arrayRemove SpecModel.imports (e' :: rest')) h)
  = Normal (deepEqual_items (e :: rest) (e' :: rest')).
Proof.
  unfold isEqual_between, bind. rewrite FieldValue_arrayRemove_returns.
  unfold allocate. rewrite FieldValue_arrayRemove_returns.
  unfold ret, isEqual, ArrayRemoveTransform_isEqual, value_of, elements_array.
  cbn [fst this_ref this_class strict_equals reference].
  rewrite deepEqual_arrays.
  replace (S (k + S (S h))) with (S (S h) + S k) by lia.
  replace (k + S (S h)) with (S h + S k) by lia.
  rewrite !later_ref_differs. reflexivity.
Qed.

(** A union and a removal made by separate calls are different objects of
    different classes. *)
Lemma arrayUnion_arrayRemove_isEqual_between
    (e e' : value) (rest rest' : list value) (k : nat) (h : heap) :
  fst (isEqual_between (FieldValue_arrayUnion SpecModel.imports (e :: rest)) k
                       (FieldValue_arrayRemove SpecModel.imports (e' :: rest')) h)
  = Normal false
  /\ fst (isEqual_between (FieldValue_arrayRemove SpecModel.imports (e :: rest)) k
                          (FieldValue_arrayUnion SpecModel.imports (e' :: rest')) h)
     = Normal false.
Proof.
  unfold isEqual_between, bind.
  rewrite !FieldValue_arrayUnion_returns, !FieldValue_arrayRemove_returns.
  unfold allocate.
  rewrite !FieldValue_arrayUnion_returns, !FieldValue_arrayRemove_returns.
  unfold ret, isEqual, ArrayUnionTransform_isEqual, ArrayRemoveTransform_isEqual,
    value_of, elements_array.
  cbn [fst this_ref this_class strict_equals reference].
  replace (S (k + S (S h))) with (S (S h) + S k) by lia.
  rewrite !later_ref_differs. split; reflexivity.
Qed.

End FactoryFacts.

(** ** The properties stated by the specification *)

(** C1: every transform kind has exactly one of the two classification flags
    set.  [DeleteTransform] is included in the document mask and not in the
    document transform; the server timestamp, the numeric increment, the
    array union and the array removal are included in the document transform
    and not in the mask. *)
Theorem classification_flags_exclusive :
  (forall t : FieldTransform,
      xorb (includeInDocumentMask t) (includeInDocumentTransform t) = true)
  /\ (includeInDocumentMask DeleteTransform = true
      /\ includeInDocumentTransform DeleteTransform = false)
  /\ (includeInDocumentMask ServerTimestampTransform = false
      /\ includeInDocumentTransform ServerTimestampTransform = true)
  /\ (forall operand,
         includeInDocumentMask (NumericIncrementTransform operand) = false
         /\ includeInDocumentTransform (NumericIncrementTransform operand) = true)
  /\ (forall r elements,
         includeInDocumentMask (ArrayUnionTransform r elements) = false
         /\ includeInDocumentTransform (ArrayUnionTransform r elements) = true)
  /\ (forall r elements,
         includeInDocumentMask (ArrayRemoveTransform r elements) = false
         /\ includeInDocumentTransform (ArrayRemoveTransform r elements) = true).
Proof.
  repeat split.
  intros t. destruct t; reflexivity.
Qed.

(** C2: every call of [FieldValue.delete()] returns the one
    [DELETE_SENTINEL] and every call of [FieldValue.serverTimestamp()] the
    one [SERVER_TIMESTAMP_SENTINEL], whatever was allocated before; neither
    call creates an object; each sentinel [isEqual] to itself, and neither
    [isEqual] to the other. *)
Theorem sentinels_are_singletons :
  forall (h h' : heap) (k : nat),
    FieldValue_delete h = (Normal DELETE_SENTINEL, h)
    /\ FieldValue_delete h' = (Normal DELETE_SENTINEL, h')
    /\ fst (isEqual_between FieldValue_delete k FieldValue_delete h) = Normal true
    /\ FieldValue_serverTimestamp h = (Normal SERVER_TIMESTAMP_SENTINEL, h)
    /\ FieldValue_serverTimestamp h' = (Normal SERVER_TIMESTAMP_SENTINEL, h')
    /\ fst (isEqual_between FieldValue_serverTimestamp k FieldValue_serverTimestamp h)
       = Normal true
    /\ fst (isEqual_between FieldValue_delete k FieldValue_serverTimestamp h)
       = Normal false
    /\ fst (isEqual_between FieldValue_serverTimestamp k FieldValue_delete h)
       = Normal false.
Proof. intros h h' k. repeat split. Qed.

(** C4: [toProto] on the delete sentinel throws, for every serializer, field
    path and state of the allocator; it returns no instruction. *)
Theorem delete_toProto_throws :
  forall (serializer : Serializer) (fieldPath : FieldPath) (h : heap),
    toProto (this_class DELETE_SENTINEL) serializer fieldPath h
    = (Throw (Error "FieldValue.delete() should not be included in a FieldTransform"),
       h).
Proof. reflexivity. Qed.

(** C5: for two increments made by separate calls with numbers [a] and [b],
    [isEqual] is the host's [a === b]; so [increment(1)] and [increment(1.0)]
    are equal, [increment(0)] and [increment(-0)] are equal, and
    [increment(1)] and [increment(2)] are not. *)
Theorem increment_isEqual_numeric :
  forall (h : heap) (k : nat),
    let increment n := FieldValue_increment SpecModel.imports [VNumber n] in
    (forall a b : number,
        fst (isEqual_between (increment a) k (increment b) h)
        = Normal (number_equals a b))
    /\ fst (isEqual_between (increment (number_of_Z 1)) k
                            (increment (decimal_literal 10 1)) h) = Normal true
    /\ fst (isEqual_between (increment (number_of_Z 0)) k
                            (increment (negate (number_of_Z 0))) h) = Normal true
    /\ fst (isEqual_between (increment (number_of_Z 1)) k
                            (increment (number_of_Z 2)) h) = Normal false.
Proof.
  intros h k increment. unfold increment.
  repeat split; intros; rewrite increment_isEqual_between; reflexivity.
Qed.

(** C6: two array unions made by separate calls are [isEqual] exactly when
    their element lists have the same length and are [deepEqual] item by
    item, in order; so two unions of the same elements in the same order are
    equal, and [arrayUnion(1, 2)] is not equal to [arrayUnion(2, 1)].  The
    same holds of array removals, and a union and a removal made by separate
    calls are never equal. *)
Theorem array_transform_isEqual :
  forall (h : heap) (k : nat) (e e' : value) (rest rest' : list value),
    let union := FieldValue_arrayUnion SpecModel.imports in
    let remove := FieldValue_arrayRemove SpecModel.imports in
    let one := VNumber (number_of_Z 1) in
    let two := VNumber (number_of_Z 2) in
    fst (isEqual_between (union (e :: rest)) k (union (e' :: rest')) h)
    = Normal (deepEqual_items (e :: rest) (e' :: rest'))
    /\ fst (isEqual_between (remove (e :: rest)) k (remove (e' :: rest')) h)
       = Normal (deepEqual_items (e :: rest) (e' :: rest'))
    /\ fst (isEqual_between (union (e :: rest)) k (union (e :: rest)) h) = Normal true
    /\ fst (isEqual_between (remove (e :: rest)) k (remove (e :: rest)) h) = Normal true
    /\ fst (isEqual_between (union [one; two]) k (union [two; one]) h) = Normal false
    /\ fst (isEqual_between (remove [one; two]) k (remove [two; one]) h) = Normal false
    /\ fst (isEqual_between (union (e :: rest)) k (remove (e' :: rest')) h) = Normal false
    /\ fst (isEqual_between (remove (e :: rest)) k (union (e' :: rest')) h) = Normal false.
Proof.
  intros h k e e' rest rest' union remove one two. unfold union, remove.
  rewrite !arrayUnion_isEqual_between, !arrayRemove_isEqual_between.
  rewrite deepEqual_items_self.
  pose proof (arrayUnion_arrayRemove_isEqual_between e e' rest rest' k h) as [Hur Hru].
  repeat split; assumption || reflexivity.
Qed.

(** C9: called with no argument, [arrayUnion], [arrayRemove] and [increment]
    each throw an ArgumentError and return no transform; called with at
    least one argument, each returns a new transform. *)
Theorem factories_check_arity :
  forall (h : heap) (e : value) (rest : list value),
    let spec := SpecModel.imports in
    fst (FieldValue_arrayUnion spec [] h) = Throw (ArgumentError "FieldValue.arrayUnion" 1)
    /\ fst (FieldValue_arrayRemove spec [] h)
       = Throw (ArgumentError "FieldValue.arrayRemove" 1)
    /\ fst (FieldValue_increment spec [] h)
       = Throw (ArgumentError "FieldValue.increment" 1)
    /\ FieldValue_arrayUnion spec (e :: rest) h
       = (Normal {| this_ref := S h; this_class := ArrayUnionTransform h (e :: rest) |},
          S (S h))
    /\ FieldValue_arrayRemove spec (e :: rest) h
       = (Normal {| this_ref := S h; this_class := ArrayRemoveTransform h (e :: rest) |},
          S (S h))
    /\ FieldValue_increment spec (e :: rest) h
       = (Normal {| this_ref := h; this_class := NumericIncrementTransform e |}, S h).
Proof. intros h e rest spec. repeat split. Qed.

(** C10: [isEqual] holds between any transform instance and itself, whatever
    its class and fields: an [increment(NaN)] is equal to itself although
    [NaN === NaN] is false, while two [increment(NaN)] made by separate calls
    are not equal. *)
Theorem isEqual_reflexive_on_instances :
  (forall x : FieldValue, isEqual x (value_of x) = true)
  /\ strict_equals (VNumber NaN) (VNumber NaN) = false
  /\ (forall r : ref,
         isEqual {| this_ref := r; this_class := NumericIncrementTransform (VNumber NaN) |}
                 (VFieldValue r (NumericIncrementTransform (VNumber NaN))) = true)
  /\ (forall (h : heap) (k : nat),
         fst (isEqual_between
                (FieldValue_increment SpecModel.imports [VNumber NaN]) k
                (FieldValue_increment SpecModel.imports [VNumber NaN]) h)
         = Normal false).
Proof.
  assert (Hrefl : forall x : FieldValue, isEqual x (value_of x) = true).
  { intros [r t].
    destruct t; unfold isEqual, FieldValue_isEqual, NumericIncrementTransform_isEqual,
      ArrayUnionTransform_isEqual, ArrayRemoveTransform_isEqual, value_of;
      cbn [this_ref this_class strict_equals reference];
      rewrite Nat.eqb_refl; reflexivity. }
  repeat split.
  - exact Hrefl.
  - intros r. apply Hrefl.
  - intros h k. rewrite increment_isEqual_between. reflexivity.
Qed.

(** C8: [increment(x)] with an operand [x] that is not a number returns a
    transform holding [x], and [validate] on that transform then throws a
    ValidationError. *)
Theorem increment_defers_validation
    (x : value) (h : heap) (allowUndefined : bool)
    (Hx : is_number x = false) :
  FieldValue_increment SpecModel.imports [x] h
  = (Normal {| this_ref := h; this_class := NumericIncrementTransform x |}, S h)
  /\ validate SpecModel.imports (NumericIncrementTransform x) allowUndefined
     = Throw (ValidationError (ArgName "FieldValue.increment()") "number").
Proof.
  split; [reflexivity |].
  unfold validate, NumericIncrementTransform_validate. simpl.
  unfold SpecModel.validateNumber. rewrite Hx. reflexivity.
Qed.

(** The string operand of the specification's example. *)
Lemma increment_defers_validation_witness :
  is_number (VString "x") = false
  /\ FieldValue_increment SpecModel.imports [VString "x"] heap_after_load
     = (Normal {| this_ref := 2; this_class := NumericIncrementTransform (VString "x") |},
        3)
  /\ validate SpecModel.imports (NumericIncrementTransform (VString "x")) false
     = Throw (ValidationError (ArgName "FieldValue.increment()") "number").
Proof.
  split; [reflexivity |].
  apply (increment_defers_validation (VString "x") heap_after_load false).
  reflexivity.
Defined.

(** C3, as amended: for every serializer, field path and state of the
    allocator, [toProto] of the server timestamp yields
    [{fieldPath, setToServerValue: 'REQUEST_TIME'}]; of an increment, when
    the encoder returns [encodedOperand] for the operand,
    [{fieldPath, increment: encodedOperand}]; of an array union or removal,
    when the encoder returns [encoded] for the element array and [encoded]
    is not [null] or [undefined], [{fieldPath, appendMissingElements: a}]
    and [{fieldPath, removeAllFromArray: a}] where [a] is
    [encoded.arrayValue], not [encoded] itself.  Each part holds under its
    own condition only. *)
Theorem toProto_encoding :
  forall (serializer : Serializer) (fieldPath : FieldPath) (h : heap),
    let p := VString (formattedName fieldPath) in
    toProto ServerTimestampTransform serializer fieldPath h
    = (Normal (VObject h [("fieldPath", p); ("setToServerValue", VString "REQUEST_TIME")]),
       S h)
    /\ (forall (operand encodedOperand : value) (h1 : heap),
           encodeValue serializer operand h = (Normal encodedOperand, h1) ->
           toProto (NumericIncrementTransform operand) serializer fieldPath h
           = (Normal (VObject h1 [("fieldPath", p); ("increment", encodedOperand)]),
              S h1))
    /\ (forall (r : ref) (elements : list value) (encoded encodedElements : value)
               (h2 : heap),
           encodeValue serializer (VArray r elements) h = (Normal encoded, h2) ->
           read_arrayValue encoded = Normal encodedElements ->
           toProto (ArrayUnionTransform r elements) serializer fieldPath h
           = (Normal (VObject h2 [("fieldPath", p);
                                  ("appendMissingElements", encodedElements)]),
              S h2)
           /\ toProto (ArrayRemoveTransform r elements) serializer fieldPath h
              = (Normal (VObject h2 [("fieldPath", p);
                                     ("removeAllFromArray", encodedElements)]),
                 S h2))
    /\ (forall encoded : value,
           encoded <> VNull -> encoded <> VUndefined ->
           exists encodedElements, read_arrayValue encoded = Normal encodedElements).
Proof.
  intros serializer fieldPath h p.
  split; [reflexivity |]. split; [| split].
  - intros operand encodedOperand h1 Hoperand.
    unfold toProto, NumericIncrementTransform_toProto, bind.
    rewrite Hoperand. reflexivity.
  - intros r elements encoded encodedElements h2 Helements HarrayValue.
    unfold toProto, ArrayUnionTransform_toProto, ArrayRemoveTransform_toProto,
      elements_array, bind, lift.
    rewrite Helements, HarrayValue. split; reflexivity.
  - intros encoded Hnull Hundefined.
    destruct encoded; simpl; eauto; contradiction.
Qed.

(** The encodings of the specification's examples under [Example.serializer]. *)
Lemma toProto_encoding_witness :
  let s := Example.serializer in
  let tags := {| formattedName := "tags" |} in
  let five := VNumber (number_of_Z 5) in
  let encodedFive := VObject 4 [("doubleValue", five)] in
  let arrayValue := VObject 6 [("values", VArray 5 [VObject 4 [("stringValue", VString "x")]])] in
  let encoded := VObject 7 [("arrayValue", arrayValue)] in
  encodeValue s five 4 = (Normal encodedFive, 5)
  /\ encodeValue s (VArray 2 [VString "x"]) 4 = (Normal encoded, 8)
  /\ read_arrayValue encoded = Normal arrayValue
  /\ toProto ServerTimestampTransform s tags 4
     = (Normal (VObject 4 [("fieldPath", VString "tags");
                           ("setToServerValue", VString "REQUEST_TIME")]), 5)
  /\ toProto (NumericIncrementTransform five) s tags 4
     = (Normal (VObject 5 [("fieldPath", VString "tags"); ("increment", encodedFive)]), 6)
  /\ toProto (ArrayUnionTransform 2 [VString "x"]) s tags 4
     = (Normal (VObject 8 [("fieldPath", VString "tags");
                           ("appendMissingElements", arrayValue)]), 9)
  /\ toProto (ArrayRemoveTransform 2 [VString "x"]) s tags 4
     = (Normal (VObject 8 [("fieldPath", VString "tags");
                           ("removeAllFromArray", arrayValue)]), 9).
Proof.
  intros s tags five encodedFive arrayValue encoded.
  destruct (toProto_encoding s tags 4) as (Htimestamp & Hincrement & Harray & _).
  split; [reflexivity |]. split; [reflexivity |]. split; [reflexivity |].
  split; [exact Htimestamp |].
  split; [exact (Hincrement five encodedFive 5 eq_refl) |].
  exact (Harray 2 [VString "x"] encoded arrayValue 8 eq_refl eq_refl).
Defined.

(** C3, as stated, fails: [arrayUnion('x')] encoded at the path [tags] holds
    under [appendMissingElements] the [arrayValue] of what the encoder
    returns for the element array, which is not what the encoder returns. *)
Lemma toProto_not_as_specified :
  let s := Example.serializer in
  let tags := {| formattedName := "tags" |} in
  let t := ArrayUnionTransform 2 [VString "x"] in
  let values := VArray 5 [VObject 4 [("stringValue", VString "x")]] in
  toProto_as_specified t s tags 4
  = (Normal (VObject 8 [("fieldPath", VString "tags");
                        ("appendMissingElements",
                         VObject 7 [("arrayValue", VObject 6 [("values", values)])])]),
     9)
  /\ toProto t s tags 4
     = (Normal (VObject 8 [("fieldPath", VString "tags");
                           ("appendMissingElements", VObject 6 [("values", values)])]),
        9)
  /\ toProto t s tags 4 <> toProto_as_specified t s tags 4.
Proof.
  intros s tags t values.
  split; [reflexivity |]. split; [reflexivity |].
  intros H. vm_compute in H. discriminate H.
Qed.

(** ** Validation of array elements *)




(** ** Further properties of validation *)

(** The loop entered at index [j] returns normally exactly when every
    remaining element passes under its own index. *)
Lemma validate_elements_normal_iff
    (imports : Imports) (allowUndefined : bool) (elements : list value) (j : nat) :
  validate_elements imports j elements allowUndefined = Normal tt
  <-> forall i v,
        nth_error elements i = Some v ->
        validateArrayElement imports (ArgIndex (j + i)) v allowUndefined = Normal tt.
Proof.
  revert j. induction elements as [| e rest IH]; intros j; simpl.
  - split; [| reflexivity]. intros _ [| i] v H; discriminate H.
  - destruct (validateArrayElement imports (ArgIndex j) e allowUndefined) as [[] | x] eqn:He.
    + rewrite IH. split.
      * intros H [| i] v Hi; simpl in Hi.
        -- injection Hi as <-. rewrite Nat.add_0_r. exact He.
        -- replace (j + S i) with (S j + i) by lia. apply H. exact Hi.
      * intros H i v Hi. replace (S j + i) with (j + S i) by lia.
        apply H. exact Hi.
    + split; [discriminate |].
      intros H. specialize (H 0 e eq_refl). rewrite Nat.add_0_r, He in H.
      discriminate H.
Qed.

(** When the loop entered at index [j] throws, the exception is that of the
    first remaining element that fails. *)
Lemma validate_elements_throw
    (imports : Imports) (allowUndefined : bool) (elements : list value) (j : nat)
    (x : exn) :
  validate_elements imports j elements allowUndefined = Throw x ->
  exists i v,
    nth_error elements i = Some v
    /\ validateArrayElement imports (ArgIndex (j + i)) v allowUndefined = Throw x
    /\ forall i' w,
         i' < i -> nth_error elements i' = Some w ->
         validateArrayElement imports (ArgIndex (j + i')) w allowUndefined = Normal tt.
Proof.
  revert j. induction elements as [| e rest IH]; intros j; simpl.
  - discriminate.
  - destruct (validateArrayElement imports (ArgIndex j) e allowUndefined) as [[] | y] eqn:He.
    + intros H. destruct (IH (S j) H) as (i & v & Hi & Hv & Hbefore).
      exists (S i), v. split; [exact Hi |]. split.
      * replace (j + S i) with (S j + i) by lia. exact Hv.
      * intros [| i'] w Hlt Hw; simpl in Hw.
        -- injection Hw as <-. rewrite Nat.add_0_r. exact He.
        -- replace (j + S i') with (S j + i') by lia.
           apply Hbefore; [lia | exact Hw].
    + intros H. injection H as <-.
      exists 0, e. split; [reflexivity |]. split.
      * rewrite Nat.add_0_r. exact He.
      * intros i' w Hlt. lia.
Qed.

(** The transform of either array class over the same elements. *)
Lemma validate_array_transform
    (imports : Imports) (allowUndefined : bool) (union : bool) (r : ref)
    (elements : list value) :
  validate imports
    (if union then ArrayUnionTransform r elements else ArrayRemoveTransform r elements)
    allowUndefined
  = validate_elements imports 0 elements allowUndefined.
Proof. destruct union; reflexivity. Qed.

(** X1: [validate] on an array union or removal returns normally exactly
    when every element passes [validateArrayElement] under its own index;
    in particular it returns normally on an empty element list. *)
Theorem validate_passes_iff_all_elements_pass :
  forall (imports : Imports) (allowUndefined union : bool) (r : ref)
         (elements : list value),
    let t := if union then ArrayUnionTransform r elements
             else ArrayRemoveTransform r elements in
    (validate imports t allowUndefined = Normal tt
     <-> forall i v,
           nth_error elements i = Some v ->
           validateArrayElement imports (ArgIndex i) v allowUndefined = Normal tt)
    /\ validate imports (ArrayUnionTransform r []) allowUndefined = Normal tt
    /\ validate imports (ArrayRemoveTransform r []) allowUndefined = Normal tt.
Proof.
  intros imports allowUndefined union r elements t. unfold t.
  rewrite validate_array_transform.
  split; [| split; reflexivity].
  apply (validate_elements_normal_iff imports allowUndefined elements 0).
Qed.

(** X2: when [validate] on an array union or removal throws, the exception
    is the one [validateArrayElement] throws for some element under its own
    index, and every element before that one passes: elements are visited in
    ascending order and the first failure is the one reported. *)
Theorem validate_reports_first_failure
    (imports : Imports) (allowUndefined union : bool) (r : ref)
    (elements : list value) (x : exn)
    (Hthrows :
       validate imports
         (if union then ArrayUnionTransform r elements
          else ArrayRemoveTransform r elements) allowUndefined = Throw x) :
  exists i v,
    nth_error elements i = Some v
    /\ validateArrayElement imports (ArgIndex i) v allowUndefined = Throw x
    /\ forall i' w,
         i' < i -> nth_error elements i' = Some w ->
         validateArrayElement imports (ArgIndex i') w allowUndefined = Normal tt.
Proof.
  rewrite validate_array_transform in Hthrows.
  exact (validate_elements_throw imports allowUndefined elements 0 x Hthrows).
Qed.

(** An array after a number: the failure reported is the array's. *)
Lemma validate_reports_first_failure_witness :
  let elements := [VNumber (number_of_Z 1); VArray 2 [VNumber (number_of_Z 1)]] in
  let x := Error "Element at index 1 is not a valid array element. Nested arrays are not supported." in
  validate SpecModel.imports (ArrayUnionTransform 3 elements) false = Throw x
  /\ exists i v,
       nth_error elements i = Some v
       /\ validateArrayElement SpecModel.imports (ArgIndex i) v false = Throw x
       /\ forall i' w,
            i' < i -> nth_error elements i' = Some w ->
            validateArrayElement SpecModel.imports (ArgIndex i') w false = Normal tt.
Proof.
  intros elements x. split; [reflexivity |].
  apply (validate_reports_first_failure SpecModel.imports false true 3 elements x).
  reflexivity.
Defined.

(** X3: an array union or removal on which [validate] returns normally has
    no array among its elements, whatever the imported validator accepts. *)
Theorem validated_elements_are_not_arrays
    (imports : Imports) (allowUndefined union : bool) (r : ref)
    (elements : list value)
    (Hvalid :
       validate imports
         (if union then ArrayUnionTransform r elements
          else ArrayRemoveTransform r elements) allowUndefined = Normal tt) :
  forallb (fun v => negb (Array_isArray v)) elements = true.
Proof.
  rewrite validate_array_transform in Hvalid.
  apply forallb_forall. intros v Hin.
  destruct (In_nth_error _ _ Hin) as [i Hi].
  pose proof (proj1 (validate_elements_normal_iff imports allowUndefined elements 0)
                Hvalid i v Hi) as Hv.
  unfold validateArrayElement in Hv.
  destruct (Array_isArray v); [discriminate Hv | reflexivity].
Qed.

Lemma validated_elements_are_not_arrays_witness :
  let elements := [VNumber (number_of_Z 1); VString "x"] in
  validate SpecModel.imports (ArrayRemoveTransform 2 elements) false = Normal tt
  /\ forallb (fun v => negb (Array_isArray v)) elements = true.
Proof.
  intros elements. split; [reflexivity |].
  apply (validated_elements_are_not_arrays SpecModel.imports false false 2 elements).
  reflexivity.
Defined.

(** ** Further properties of [toProto] *)

(** X4: when the serializer throws while encoding the operand of an
    increment or the elements of an array transform, [toProto] throws the
    same exception and creates no object of its own. *)
Theorem toProto_propagates_encoder_exception
    (t : FieldTransform) (serializer : Serializer) (fieldPath : FieldPath)
    (payload : value) (x : exn) (h h1 : heap)
    (Hpayload : encoded_payload t = Some payload)
    (Hthrows : encodeValue serializer payload h = (Throw x, h1)) :
  toProto t serializer fieldPath h = (Throw x, h1).
Proof.
  destruct t; simpl in Hpayload; try discriminate Hpayload;
    injection Hpayload as <-;
    unfold toProto, NumericIncrementTransform_toProto, ArrayUnionTransform_toProto,
      ArrayRemoveTransform_toProto, bind;
    rewrite Hthrows; reflexivity.
Qed.

Lemma toProto_propagates_encoder_exception_witness :
  let t := ArrayUnionTransform 2 [VString "x"] in
  let tags := {| formattedName := "tags" |} in
  encoded_payload t = Some (VArray 2 [VString "x"])
  /\ encodeValue Degenerate.throwing_serializer (VArray 2 [VString "x"]) 4
     = (Throw (Error "Cannot encode value"), 4)
  /\ toProto t Degenerate.throwing_serializer tags 4
     = (Throw (Error "Cannot encode value"), 4).
Proof.
  intros t tags. split; [reflexivity |]. split; [reflexivity |].
  apply (toProto_propagates_encoder_exception t Degenerate.throwing_serializer tags
           (VArray 2 [VString "x"]) (Error "Cannot encode value") 4 4);
    reflexivity.
Defined.

(** X5: when the serializer returns [null] or [undefined] for the elements
    of an array union or removal, [toProto] throws a TypeError (the read of
    [arrayValue] fails) and builds no instruction. *)
Theorem toProto_array_null_encoding_throws
    (union : bool) (r : ref) (elements : list value)
    (serializer : Serializer) (fieldPath : FieldPath)
    (encoded : value) (h h1 : heap)
    (Hencoded : encodeValue serializer (VArray r elements) h = (Normal encoded, h1))
    (Hnull : encoded = VNull \/ encoded = VUndefined) :
  toProto (if union then ArrayUnionTransform r elements
           else ArrayRemoveTransform r elements) serializer fieldPath h
  = (Throw TypeError, h1).
Proof.
  destruct union;
    unfold toProto, ArrayUnionTransform_toProto, ArrayRemoveTransform_toProto,
      elements_array, bind, lift;
    rewrite Hencoded; destruct Hnull as [-> | ->]; reflexivity.
Qed.

Lemma toProto_array_null_encoding_throws_witness :
  let tags := {| formattedName := "tags" |} in
  encodeValue Degenerate.null_serializer (VArray 2 [VString "x"]) 4 = (Normal VNull, 4)
  /\ (VNull = VNull \/ VNull = VUndefined)
  /\ toProto (ArrayRemoveTransform 2 [VString "x"]) Degenerate.null_serializer tags 4
     = (Throw TypeError, 4).
Proof.
  intros tags. split; [reflexivity |]. split; [left; reflexivity |].
  apply (toProto_array_null_encoding_throws false 2 [VString "x"]
           Degenerate.null_serializer tags VNull 4 4);
    [reflexivity | left; reflexivity].
Defined.

(** X6: whenever [toProto] returns, the transform is one that is included in
    document transforms (never the delete sentinel), and the result is a
    newly created object with exactly two properties: [fieldPath], holding
    the formatted name of the path, and the one key of the transform's
    class.  The object takes the reference the allocator hands out next once
    encoding has finished (the state the serializer leaves, or the initial
    state for the server timestamp, which encodes nothing), the allocator
    advances by exactly that one object, and the value under the class's key
    is what the encoder returned for the operand, or its [arrayValue] for the
    elements. *)
Theorem toProto_result_shape
    (t : FieldTransform) (serializer : Serializer) (fieldPath : FieldPath)
    (v : value) (h h' : heap)
    (Hreturns : toProto t serializer fieldPath h = (Normal v, h')) :
  includeInDocumentTransform t = true
  /\ includeInDocumentMask t = false
  /\ exists (o : ref) (key : string) (payload : value),
       v = VObject o [("fieldPath", VString (formattedName fieldPath)); (key, payload)]
       /\ h' = S o
       /\ match encoded_payload t with
          | None => o = h
          | Some encoded_value =>
              exists encoded,
                encodeValue serializer encoded_value h = (Normal encoded, o)
                /\ match t with
                   | NumericIncrementTransform _ => payload = encoded
                   | _ => read_arrayValue encoded = Normal payload
                   end
          end
       /\ match t with
          | DeleteTransform => False
          | ServerTimestampTransform =>
              key = "setToServerValue" /\ payload = VString "REQUEST_TIME"
          | NumericIncrementTransform _ => key = "increment"
          | ArrayUnionTransform _ _ => key = "appendMissingElements"
          | ArrayRemoveTransform _ _ => key = "removeAllFromArray"
          end.
Proof.
  destruct t as [| | operand | r elements | r elements];
    unfold toProto, DeleteTransform_toProto, ServerTimestampTransform_toProto,
      NumericIncrementTransform_toProto, ArrayUnionTransform_toProto,
      ArrayRemoveTransform_toProto, elements_array, bind, lift, throw, ret,
      new_object in Hreturns;
    cbn [encoded_payload elements_array].
  - discriminate Hreturns.
  - injection Hreturns as <- <-. repeat split. eauto 10.
  - destruct (encodeValue serializer operand h) as [[w | x] h1] eqn:Hencoded;
      [| discriminate Hreturns].
    injection Hreturns as <- <-. repeat split.
    exists h1, "increment", w. repeat split. exists w. split; reflexivity.
  - destruct (encodeValue serializer (VArray r elements) h) as [[w | x] h1] eqn:Hencoded;
      [| discriminate Hreturns].
    destruct (read_arrayValue w) as [a | x] eqn:HarrayValue; [| discriminate Hreturns].
    injection Hreturns as <- <-. repeat split.
    exists h1, "appendMissingElements", a. repeat split.
    exists w. split; [exact Hencoded | exact HarrayValue].
  - destruct (encodeValue serializer (VArray r elements) h) as [[w | x] h1] eqn:Hencoded;
      [| discriminate Hreturns].
    destruct (read_arrayValue w) as [a | x] eqn:HarrayValue; [| discriminate Hreturns].
    injection Hreturns as <- <-. repeat split.
    exists h1, "removeAllFromArray", a. repeat split.
    exists w. split; [exact Hencoded | exact HarrayValue].
Qed.

Lemma toProto_result_shape_witness :
  let five := VNumber (number_of_Z 5) in
  let count := {| formattedName := "count" |} in
  let v := VObject 5 [("fieldPath", VString "count");
                      ("increment", VObject 4 [("doubleValue", five)])] in
  toProto (NumericIncrementTransform five) Example.serializer count 4 = (Normal v, 6)
  /\ includeInDocumentTransform (NumericIncrementTransform five) = true
  /\ includeInDocumentMask (NumericIncrementTransform five) = false
  /\ exists (o : ref) (key : string) (payload : value),
       v = VObject o [("fieldPath", VString "count"); (key, payload)]
       /\ 6 = S o
       /\ (exists encoded,
             encodeValue Example.serializer five 4 = (Normal encoded, o)
             /\ payload = encoded)
       /\ key = "increment".
Proof.
  intros five count v. split; [reflexivity |].
  apply (toProto_result_shape (NumericIncrementTransform five) Example.serializer
           count v 4 6).
  reflexivity.
Defined.

(** ** Further properties of [isEqual] *)

Lemma number_equals_sym (x y : number) : number_equals x y = number_equals y x.
Proof.
  unfold number_equals, SFeqb, SFcompare.
  destruct x as [s | s | | s m e], y as [s' | s' | | s' m' e'];
    try (destruct s; reflexivity); try (destruct s'; reflexivity);
    try (destruct s, s'; reflexivity); try reflexivity.
  destruct s, s'; try reflexivity.
  - rewrite (Z.compare_antisym e e'). destruct (Z.compare e e'); simpl; try reflexivity.
    pose proof (Pos.compare_cont_antisym m m' Eq) as Hm. simpl in Hm.
    rewrite <- Hm. destruct (Pos.compare_cont Eq m m'); reflexivity.
  - rewrite (Z.compare_antisym e e'). destruct (Z.compare e e'); simpl; try reflexivity.
    pose proof (Pos.compare_cont_antisym m m' Eq) as Hm. simpl in Hm.
    rewrite <- Hm. destruct (Pos.compare_cont Eq m m'); reflexivity.
Qed.

Lemma strict_equals_sym (a b : value) : strict_equals a b = strict_equals b a.
Proof.
  destruct a, b; simpl;
    auto using Nat.eqb_sym, String.eqb_sym, number_equals_sym.
  destruct b, b0; reflexivity.
Qed.

(** X7: a transform is never [isEqual] to a value that is not an object (a
    number, a string, a boolean, [null], [undefined]), whatever its class
    and fields. *)
Theorem isEqual_primitive_is_false
    (x : FieldValue) (other : value)
    (Hprimitive : reference other = None) :
  isEqual x other = false.
Proof.
  destruct x as [r t].
  destruct t, other; try discriminate Hprimitive; reflexivity.
Qed.

Lemma isEqual_primitive_is_false_witness :
  let one := VNumber (number_of_Z 1) in
  reference one = None
  /\ isEqual {| this_ref := 2; this_class := NumericIncrementTransform one |} one = false.
Proof.
  intros one. split; [reflexivity |].
  apply (isEqual_primitive_is_false
           {| this_ref := 2; this_class := NumericIncrementTransform one |} one).
  reflexivity.
Defined.

(** X8: two transform instances that are different objects of different
    classes (their [methodName]s differ) are never [isEqual], whatever their
    fields: an increment is not equal to an array union of the same value,
    nor a sentinel to any parameterised transform. *)
Theorem isEqual_across_classes_is_false
    (x y : FieldValue)
    (Hobjects : this_ref x <> this_ref y)
    (Hclasses : methodName (this_class x) <> methodName (this_class y)) :
  isEqual x (value_of y) = false.
Proof.
  destruct x as [r t], y as [r' u]. simpl in Hobjects, Hclasses.
  apply Nat.eqb_neq in Hobjects.
  destruct t, u; try (exfalso; apply Hclasses; reflexivity);
    unfold isEqual, FieldValue_isEqual, NumericIncrementTransform_isEqual,
      ArrayUnionTransform_isEqual, ArrayRemoveTransform_isEqual, value_of;
    cbn [this_ref this_class strict_equals reference];
    rewrite Hobjects; reflexivity.
Qed.

Lemma isEqual_across_classes_is_false_witness :
  let one := VNumber (number_of_Z 1) in
  let x := {| this_ref := 2; this_class := NumericIncrementTransform one |} in
  let y := {| this_ref := 4; this_class := ArrayUnionTransform 3 [one] |} in
  this_ref x <> this_ref y
  /\ methodName (this_class x) <> methodName (this_class y)
  /\ isEqual x (value_of y) = false.
Proof.
  intros one x y.
  assert (Hobjects : this_ref x <> this_ref y) by (simpl; lia).
  assert (Hclasses : methodName (this_class x) <> methodName (this_class y))
    by (simpl; discriminate).
  split; [exact Hobjects |]. split; [exact Hclasses |].
  exact (isEqual_across_classes_is_false x y Hobjects Hclasses).
Defined.

(** X9: comparing an increment with any transform instance gives the same
    answer in both directions, whatever the operand of the increment and the
    class of the other instance. *)
Theorem increment_isEqual_symmetric :
  forall (r : ref) (operand : value) (y : FieldValue),
    let x := {| this_ref := r; this_class := NumericIncrementTransform operand |} in
    isEqual x (value_of y) = isEqual y (value_of x).
Proof.
  intros r operand [r' u] x. unfold x.
  destruct u;
    unfold isEqual, FieldValue_isEqual, NumericIncrementTransform_isEqual,
      ArrayUnionTransform_isEqual, ArrayRemoveTransform_isEqual, value_of;
    cbn [this_ref this_class strict_equals reference];
    rewrite (Nat.eqb_sym r r'); rewrite ?orb_false_r; try reflexivity.
  rewrite (strict_equals_sym operand operand0). reflexivity.
Qed.

(** The item-by-item comparison succeeds exactly on lists of the same length
    whose items at the same index are [deepEqual]. *)
Lemma deepEqual_items_true_iff (xs ys : list value) :
  deepEqual_items xs ys = true
  <-> List.length xs = List.length ys
      /\ forall i x y,
           nth_error xs i = Some x -> nth_error ys i = Some y -> deepEqual x y = true.
Proof.
  revert ys. induction xs as [| x xs IH]; intros [| y ys]; simpl.
  - split; [| reflexivity]. intros _. split; [reflexivity |].
    intros [| i] a b H; discriminate H.
  - split; [discriminate |]. intros [H _]. discriminate H.
  - split; [discriminate |]. intros [H _]. discriminate H.
  - rewrite andb_true_iff, IH. split.
    + intros [Hxy [Hlen Hitems]]. split; [f_equal; exact Hlen |].
      intros [| i] a b Ha Hb; simpl in Ha, Hb.
      * injection Ha as <-. injection Hb as <-. exact Hxy.
      * exact (Hitems i a b Ha Hb).
    + intros [Hlen Hitems]. split; [exact (Hitems 0 x y eq_refl eq_refl) |].
      split; [injection Hlen as Hlen; exact Hlen |].
      intros i a b Ha Hb. exact (Hitems (S i) a b Ha Hb).
Qed.

(** X10: two array unions (or two array removals) made by separate calls are
    [isEqual] exactly when they have the same number of elements and the
    elements at each index are [deepEqual]; transforms with different numbers
    of elements are never equal. *)
Theorem array_transform_isEqual_iff :
  forall (union : bool) (h : heap) (k : nat) (e e' : value) (rest rest' : list value),
    let factory :=
      if union then FieldValue_arrayUnion SpecModel.imports
      else FieldValue_arrayRemove SpecModel.imports in
    let xs := e :: rest in
    let ys := e' :: rest' in
    fst (isEqual_between (factory xs) k (factory ys) h) = Normal true
    <-> List.length xs = List.length ys
        /\ forall i x y,
             nth_error xs i = Some x -> nth_error ys i = Some y ->
             deepEqual x y = true.
Proof.
  intros union h k e e' rest rest' factory xs ys.
  rewrite <- deepEqual_items_true_iff.
  unfold factory, xs, ys. destruct union.
  - rewrite arrayUnion_isEqual_between. split; [intros H; injection H as H; exact H |].
    intros ->. reflexivity.
  - rewrite arrayRemove_isEqual_between. split; [intros H; injection H as H; exact H |].
    intros ->. reflexivity.
Qed.

(** ** Further properties of the factories *)

(** X11: once the module is loaded, a transform returned by [increment],
    [arrayUnion] or [arrayRemove] is a new object, whatever the imported
    arity check does: its reference was unused before the call and is used
    after it, and it is not [isEqual] to either sentinel, in either
    direction. *)
Theorem created_transform_is_fresh
    (imports : Imports) (arguments : list value) (m : M FieldValue)
    (x : FieldValue) (h h' : heap)
    (Hfactory : In m [FieldValue_increment imports arguments;
                      FieldValue_arrayUnion imports arguments;
                      FieldValue_arrayRemove imports arguments])
    (Hloaded : heap_after_load <= h)
    (Hreturns : m h = (Normal x, h')) :
  h <= this_ref x < h'
  /\ isEqual x (value_of DELETE_SENTINEL) = false
  /\ isEqual DELETE_SENTINEL (value_of x) = false
  /\ isEqual x (value_of SERVER_TIMESTAMP_SENTINEL) = false
  /\ isEqual SERVER_TIMESTAMP_SENTINEL (value_of x) = false.
Proof.
  unfold heap_after_load in Hloaded.
  destruct h as [| [| h]]; try lia.
  destruct Hfactory as [<- | [<- | [<- | []]]];
    unfold FieldValue_increment, FieldValue_arrayUnion, FieldValue_arrayRemove,
      bind, lift, new_object, ret in Hreturns;
    match type of Hreturns with
    | context [validateMinNumberOfArguments ?i ?f ?a ?n] =>
        destruct (validateMinNumberOfArguments i f a n) as [[] | e]
    end;
    try discriminate Hreturns;
    injection Hreturns as <- <-;
    (split; [simpl; lia |]); repeat split.
Qed.

Lemma created_transform_is_fresh_witness :
  let m := FieldValue_arrayUnion SpecModel.imports [VString "x"] in
  let x := {| this_ref := 3; this_class := ArrayUnionTransform 2 [VString "x"] |} in
  In m [FieldValue_increment SpecModel.imports [VString "x"];
        FieldValue_arrayUnion SpecModel.imports [VString "x"];
        FieldValue_arrayRemove SpecModel.imports [VString "x"]]
  /\ heap_after_load <= 2
  /\ m 2 = (Normal x, 4)
  /\ 2 <= this_ref x < 4
  /\ isEqual x (value_of DELETE_SENTINEL) = false
  /\ isEqual DELETE_SENTINEL (value_of x) = false
  /\ isEqual x (value_of SERVER_TIMESTAMP_SENTINEL) = false
  /\ isEqual SERVER_TIMESTAMP_SENTINEL (value_of x) = false.
Proof.
  intros m x.
  assert (Hfactory :
            In m [FieldValue_increment SpecModel.imports [VString "x"];
                  FieldValue_arrayUnion SpecModel.imports [VString "x"];
                  FieldValue_arrayRemove SpecModel.imports [VString "x"]])
    by (right; left; reflexivity).
  assert (Hloaded : heap_after_load <= 2) by (unfold heap_after_load; lia).
  split; [exact Hfactory |]. split; [exact Hloaded |]. split; [reflexivity |].
  exact (created_transform_is_fresh SpecModel.imports [VString "x"] m x 2 4
           Hfactory Hloaded eq_refl).
Defined.

(** X12: increments compare their operands with [===], not deeply: two
    increments made by separate calls whose operands are different objects
    are never [isEqual], even when the two objects have the same content. *)
Theorem increment_isEqual_is_not_deep
    (a b : value) (r r' : ref) (k : nat) (h : heap)
    (Ha : reference a = Some r)
    (Hb : reference b = Some r')
    (Hdistinct : r <> r') :
  fst (isEqual_between (FieldValue_increment SpecModel.imports [a]) k
                       (FieldValue_increment SpecModel.imports [b]) h)
  = Normal false.
Proof.
  rewrite increment_isEqual_between. f_equal.
  apply Nat.eqb_neq in Hdistinct.
  destruct a, b; try discriminate Ha; try discriminate Hb;
    simpl in Ha, Hb; injection Ha as ->; injection Hb as ->;
    simpl; exact Hdistinct.
Qed.

Lemma increment_isEqual_is_not_deep_witness :
  let a := VArray 2 [VNumber (number_of_Z 1)] in
  let b := VArray 3 [VNumber (number_of_Z 1)] in
  reference a = Some 2
  /\ reference b = Some 3
  /\ 2 <> 3
  /\ deepEqual a b = true
  /\ fst (isEqual_between (FieldValue_increment SpecModel.imports [a]) 0
                          (FieldValue_increment SpecModel.imports [b]) 4)
     = Normal false.
Proof.
  intros a b.
  assert (Hdistinct : 2 <> 3) by lia.
  split; [reflexivity |]. split; [reflexivity |]. split; [exact Hdistinct |].
  split; [reflexivity |].
  exact (increment_isEqual_is_not_deep a b 2 3 0 4 eq_refl eq_refl Hdistinct).
Defined.
